(** * fetch-doc: the Google Docs to HTML lambda, embedded in Rocq

    The development follows [src/tmp.py].  Python values are modelled as the
    code uses them:

    - a [str] is a sequence of Unicode code points ([list N]), so that
      [str.strip()] can be given its Unicode meaning;
    - a JSON object (a Python [dict]) is a record whose fields are [option]s:
      [None] stands for an absent key, [d.get(k, default)] is [get],
      [k in d] is [contains] and [d[k]] is the fallible [subscript];
    - a [for] loop that appends to a list is a left fold in the error monad
      [result], threading the list;
    - exceptions are the [Raise] branch of [result]. *)

From Stdlib Require Import List NArith ZArith String Ascii Bool Lia.
From Stdlib Require Import DecimalString.
Import ListNotations.

Set Implicit Arguments.

(* ================================================================== *)
(** ** Python strings *)

Module Py.

Definition str := list N.

(** An ASCII literal of the source, as code points. *)
Definition lit (s : string) : str := map N_of_ascii (list_ascii_of_string s).

(** The double-quote character U+0022, which the source writes inside
    single-quoted literals. *)
Definition dquote : str := [34%N].

(** [Py_UNICODE_ISSPACE]: the code points [str.strip()] removes. *)
Definition isspace (c : N) : bool :=
  ((9 <=? c) && (c <=? 13) || (28 <=? c) && (c <=? 32)
   || (c =? 133) || (c =? 160) || (c =? 5760)
   || (8192 <=? c) && (c <=? 8202)
   || (c =? 8232) || (c =? 8233) || (c =? 8239) || (c =? 8287)
   || (c =? 12288))%N.

Fixpoint lstrip (s : str) : str :=
  match s with
  | [] => []
  | c :: t => if isspace c then lstrip t else s
  end.

Definition rstrip (s : str) : str := rev (lstrip (rev s)).

(** [s.strip()] *)
Definition strip (s : str) : str := rstrip (lstrip s).

(** [sep.join(parts)] *)
Fixpoint join (sep : str) (parts : list str) : str :=
  match parts with
  | [] => []
  | [p] => p
  | p :: rest => p ++ sep ++ join sep rest
  end.

(** Truth value of a [str]: only the empty string is falsy. *)
Definition truthy (s : str) : bool :=
  match s with [] => false | _ :: _ => true end.

(** [a == b] on strings. *)
Fixpoint str_eqb (a b : str) : bool :=
  match a, b with
  | [], [] => true
  | x :: a', y :: b' => (x =? y)%N && str_eqb a' b'
  | _, _ => false
  end.

(** Truth value of an optional boolean field read with [d.get(k)]:
    an absent key gives [None], which is falsy. *)
Definition flag (f : option bool) : bool :=
  match f with Some true => true | _ => false end.

(** *** Exceptions and the error monad *)

Inductive exn :=
| KeyError (key : string)
| AttributeError (msg : str)
| HttpError (status : Z) (error_details : str)
| Exception (msg : str).

Inductive result (A : Type) :=
| Ok (a : A)
| Raise (e : exn).

Arguments Ok {A} a.
Arguments Raise {A} e.

Definition bind {A B} (m : result A) (k : A -> result B) : result B :=
  match m with
  | Ok a => k a
  | Raise e => Raise e
  end.

(** [for x in xs: s = step(s, x)], stopping at the first exception. *)
Fixpoint for_each {A S} (step : S -> A -> result S) (xs : list A) (s : S)
  : result S :=
  match xs with
  | [] => Ok s
  | x :: rest => bind (step s x) (for_each step rest)
  end.

(** *** Dictionary access on an optional field *)

(** [k in d] *)
Definition contains {A} (field : option A) : bool :=
  match field with Some _ => true | None => false end.

(** [d.get(k, default)] *)
Definition get {A} (field : option A) (default : A) : A :=
  match field with Some v => v | None => default end.

(** [d[k]], which raises [KeyError] on an absent key. *)
Definition subscript {A} (key : string) (field : option A) : result A :=
  match field with Some v => Ok v | None => Raise (KeyError key) end.

End Py.

Import Py.

Notation "x <- m ;; k" := (bind m (fun x => k))
  (at level 61, m at next level, right associativity).

Open Scope list_scope.

(* ================================================================== *)
(** ** The document, as the Docs API returns it *)

(** Only the keys the renderer reads are modelled; any other key of an
    object is ignored by the code. *)

Record TextStyle := {
  bold : option bool;
  italic : option bool;
  underline : option bool
}.

Record TextRun := {
  content : option str;
  textStyle : option TextStyle
}.

(** A paragraph element; kinds other than a text run (page breaks, inline
    objects, ...) have no ['textRun'] key. *)
Record ParagraphElement := {
  textRun : option TextRun
}.

Record ParagraphStyle := {
  namedStyleType : option str
}.

Record Paragraph := {
  elements : option (list ParagraphElement);
  paragraphStyle : option ParagraphStyle
}.

(** A structural element has a ['paragraph'] key, a ['table'] key, or
    neither (section breaks, tables of contents).  The content of a table
    cell is again a list of structural elements. *)
Inductive StructuralElement :=
  Build_StructuralElement
    (paragraph : option Paragraph) (table : option Table)
with Table :=
  Build_Table (tableRows : option (list TableRow))
with TableRow :=
  Build_TableRow (tableCells : option (list TableCell))
with TableCell :=
  Build_TableCell (cell_content : option (list StructuralElement)).

Definition paragraph (e : StructuralElement) : option Paragraph :=
  match e with Build_StructuralElement p _ => p end.

Definition table (e : StructuralElement) : option Table :=
  match e with Build_StructuralElement _ t => t end.

Definition tableRows (t : Table) : option (list TableRow) :=
  match t with Build_Table r => r end.

Definition tableCells (r : TableRow) : option (list TableCell) :=
  match r with Build_TableRow c => c end.

(** The ['content'] key of a table cell. *)
Definition cell_content (c : TableCell) : option (list StructuralElement) :=
  match c with Build_TableCell c => c end.

Record Body := {
  body_content : option (list StructuralElement)   (* key 'content' *)
}.

Record Document := {
  title : option str;
  body : option Body
}.

(** The empty dictionary [{}] used as a default, at each type. *)
Definition empty_TextStyle : TextStyle :=
  {| bold := None; italic := None; underline := None |}.
Definition empty_ParagraphStyle : ParagraphStyle :=
  {| namedStyleType := None |}.
Definition empty_Body : Body := {| body_content := None |}.

(* ================================================================== *)
(** ** convert_google_doc_to_html *)

Definition span_open (cls : string) : str :=
  lit "<span class=" ++ dquote ++ lit cls ++ dquote ++ lit ">".

(** Lines 275-281: the three style tests, in source order. *)
Definition apply_text_styles (content_text : str) (text_style : TextStyle)
  : str :=
  let styled_text := content_text in
  let styled_text :=
    if flag (bold text_style)
    then span_open "bold" ++ styled_text ++ lit "</span>"
    else styled_text in
  let styled_text :=
    if flag (italic text_style)
    then span_open "italic" ++ styled_text ++ lit "</span>"
    else styled_text in
  let styled_text :=
    if flag (underline text_style)
    then span_open "underline" ++ styled_text ++ lit "</span>"
    else styled_text in
  styled_text.

(** Body of the loop at lines 268-283. *)
Definition text_parts_step (text_parts : list str) (elem : ParagraphElement)
  : result (list str) :=
  if contains (textRun elem) then
    text_run <- subscript "textRun" (textRun elem) ;;
    let content_text := get (content text_run) [] in
    let text_style := get (textStyle text_run) empty_TextStyle in
    let styled_text := apply_text_styles content_text text_style in
    Ok (text_parts ++ [styled_text])
  else Ok text_parts.

(** Lines 259-295: one paragraph appended to [html_parts]. *)
Definition render_paragraph (html_parts : list str) (paragraph : Paragraph)
  : result (list str) :=
  let para_elements := get (elements paragraph) [] in
  let paragraph_style := get (paragraphStyle paragraph) empty_ParagraphStyle in
  let named_style :=
    get (namedStyleType paragraph_style) (lit "NORMAL_TEXT") in
  text_parts <- for_each text_parts_step para_elements [] ;;
  let combined_text := strip (join [] text_parts) in
  if truthy combined_text then
    if str_eqb named_style (lit "HEADING_1") then
      Ok (html_parts ++ [lit "<h1>" ++ combined_text ++ lit "</h1>"])
    else if str_eqb named_style (lit "HEADING_2") then
      Ok (html_parts ++ [lit "<h2>" ++ combined_text ++ lit "</h2>"])
    else if str_eqb named_style (lit "HEADING_3") then
      Ok (html_parts ++ [lit "<h3>" ++ combined_text ++ lit "</h3>"])
    else
      Ok (html_parts ++ [lit "<p>" ++ combined_text ++ lit "</p>"])
  else Ok html_parts.

(** Lines 308-310. *)
Definition cell_run_step (cell_content : list str) (pe : ParagraphElement)
  : result (list str) :=
  if contains (textRun pe) then
    text_run <- subscript "textRun" (textRun pe) ;;
    Ok (cell_content ++ [get (content text_run) []])
  else Ok cell_content.

(** Lines 305-310. *)
Definition cell_elem_step (cell_content : list str)
  (cell_elem : StructuralElement) : result (list str) :=
  if contains (paragraph cell_elem) then
    p <- subscript "paragraph" (paragraph cell_elem) ;;
    let para_elems := get (elements p) [] in
    for_each cell_run_step para_elems cell_content
  else Ok cell_content.

(** Lines 303-311. *)
Definition cell_step (html_parts : list str) (cell : TableCell)
  : result (list str) :=
  cell_content <- for_each cell_elem_step (get (cell_content cell) []) [] ;;
  Ok (html_parts ++ [lit "<td>" ++ strip (join [] cell_content) ++ lit "</td>"]).

(** Lines 301-312. *)
Definition row_step (html_parts : list str) (row : TableRow)
  : result (list str) :=
  let html_parts := html_parts ++ [lit "<tr>"] in
  html_parts <- for_each cell_step (get (tableCells row) []) html_parts ;;
  Ok (html_parts ++ [lit "</tr>"]).

Definition table_open : str :=
  lit "<table border=" ++ dquote ++ lit "1" ++ dquote
  ++ lit " cellpadding=" ++ dquote ++ lit "5" ++ dquote
  ++ lit " cellspacing=" ++ dquote ++ lit "0" ++ dquote ++ lit ">".

(** Lines 299-313. *)
Definition render_table (html_parts : list str) (table : Table)
  : result (list str) :=
  let html_parts := html_parts ++ [table_open] in
  html_parts <- for_each row_step (get (tableRows table) []) html_parts ;;
  Ok (html_parts ++ [lit "</table>"]).

(** Body of the loop at lines 257-313. *)
Definition element_step (html_parts : list str) (element : StructuralElement)
  : result (list str) :=
  if contains (paragraph element) then
    p <- subscript "paragraph" (paragraph element) ;;
    render_paragraph html_parts p
  else if contains (table element) then
    t <- subscript "table" (table element) ;;
    render_table html_parts t
  else Ok html_parts.

(** Lines 234-255: the initial value of [html_parts]. *)
Definition html_head (title : str) : list str :=
  [ lit "<!DOCTYPE html>";
    lit "<html>";
    lit "<head>";
    lit "<title>" ++ title ++ lit "</title>";
    lit "<meta charset=" ++ dquote ++ lit "UTF-8" ++ dquote ++ lit ">";
    lit "<style>";
    lit "body { font-family: Arial, sans-serif; max-width: 800px; margin: 40px auto; padding: 20px; line-height: 1.6; }";
    lit "h1 { font-size: 24px; margin-top: 20px; margin-bottom: 10px; }";
    lit "h2 { font-size: 20px; margin-top: 18px; margin-bottom: 8px; }";
    lit "h3 { font-size: 16px; margin-top: 16px; margin-bottom: 6px; }";
    lit "p { margin: 10px 0; }";
    lit "ul, ol { margin: 10px 0; padding-left: 30px; }";
    lit "li { margin: 5px 0; }";
    lit ".bold { font-weight: bold; }";
    lit ".italic { font-style: italic; }";
    lit ".underline { text-decoration: underline; }";
    lit "</style>";
    lit "</head>";
    lit "<body>";
    lit "<h1>" ++ title ++ lit "</h1>" ].

Definition html_tail : list str := [ lit "</body>"; lit "</html>" ].

(** The list [html_parts] just before the final join. *)
Definition html_parts_of (document : Document) : result (list str) :=
  let title := get (title document) (lit "Untitled Document") in
  let body := get (body document) empty_Body in
  let content := get (body_content body) [] in
  let html_parts := html_head title in
  html_parts <- for_each element_step content html_parts ;;
  Ok (html_parts ++ html_tail).

Definition newline : str := [10%N].

Definition convert_google_doc_to_html (document : Document) : result str :=
  html_parts <- html_parts_of document ;;
  Ok (join newline html_parts).

(* ================================================================== *)
(** ** lambda_handler and find_document_in_folder *)

Module Lambda.

(** A JSON object whose values are strings or null, as a list of
    key/value pairs; [None] is the value [None] of Python. *)
Definition dict := list (str * option str).

(** [d.get(k)] *)
Fixpoint dict_get (d : dict) (k : str) : option str :=
  match d with
  | [] => None
  | (k', v) :: rest => if str_eqb k' k then v else dict_get rest k
  end.

(** Truth value of a string or [None]. *)
Definition truthy_opt (v : option str) : bool :=
  match v with Some s => truthy s | None => false end.

(** Truth value of a dictionary or [None]. *)
Definition truthy_dict (v : option dict) : bool :=
  match v with Some (_ :: _) => true | _ => false end.

(** The value under the ['body'] key of the event, and what [json.loads]
    may return for it. *)
Inductive BodyValue :=
| BodyStr (s : str)
| BodyDict (d : dict)
| BodyNone.

(** The event; a field is [None] when the key is absent. *)
Record Event := {
  ev_doc_name : option (option str);                (* key 'doc_name' *)
  ev_queryStringParameters : option (option dict);  (* key 'queryStringParameters' *)
  ev_body : option BodyValue                        (* key 'body' *)
}.

(** The response body: [JsonError m] is [json.dumps({'error': m})]. *)
Inductive ResponseBody :=
| JsonError (error : str)
| Html (html_content : str).

Record Response := {
  statusCode : Z;
  headers : list (str * str);
  body : ResponseBody
}.

(** An entry of the Drive listing, with the requested fields. *)
Record File := {
  file_id : option str;     (* key 'id' *)
  file_name : option str    (* key 'name' *)
}.

Record FileList := {
  files : option (list File)
}.

(** [str(n)] for an integer. *)
Definition str_of_int (n : Z) : str :=
  lit (DecimalString.NilZero.string_of_int (Z.to_int n)).

Definition json_headers : list (str * str) :=
  [ (lit "Content-Type", lit "application/json") ].

Definition html_headers : list (str * str) :=
  [ (lit "Content-Type", lit "text/html");
    (lit "Access-Control-Allow-Origin", lit "*");
    (lit "Access-Control-Allow-Headers", lit "Content-Type");
    (lit "Access-Control-Allow-Methods", lit "GET, POST, OPTIONS") ].

Definition error_response (status : Z) (message : str) : Response :=
  {| statusCode := status; headers := json_headers;
     body := JsonError message |}.

Definition SCOPES : list str :=
  [ lit "https://www.googleapis.com/auth/documents.readonly";
    lit "https://www.googleapis.com/auth/drive.readonly" ].

Section Handler.

(** The decoded service-account data, the credentials object and an API
    service object are opaque to the handler. *)
Variables CredentialsData Credentials Service : Type.

(** What the handler calls outside itself.  Each call returns a value or
    raises; [b64decode_json_loads] is
    [json.loads(base64.b64decode(s))], whose failure is only ever turned
    into text, so it returns [inl (str(e))]. *)
Record World := {
  environ_get : string -> option str;
  json_loads : str -> result BodyValue;
  b64decode_json_loads : str -> str + CredentialsData;
  from_service_account_info : CredentialsData -> list str -> result Credentials;
  build : string -> string -> Credentials -> result Service;
  files_list_execute : Service -> str -> result FileList;
  documents_get_execute : Service -> str -> result Document
}.

Variable w : World.

(** Line 202: the Drive query. *)
Definition drive_query (doc_name folder_id : str) : str :=
  lit "name = '" ++ doc_name ++ lit "' and '" ++ folder_id
  ++ lit "' in parents and mimeType = 'application/vnd.google-apps.document' and trashed = false".

(** Lines 200-218: the [try] block of [find_document_in_folder]. *)
Definition find_document_try (drive_service : Service)
  (doc_name folder_id : str) : result (option str) :=
  let query := drive_query doc_name folder_id in
  results <- files_list_execute w drive_service query ;;
  let files := get (files results) [] in
  match files with
  | [] => Ok None
  | first :: _ => id <- subscript "id" (file_id first) ;; Ok (Some id)
  end.

(** Lines 194-222.  The [print] of the [except] branch writes to the log
    only and is left out. *)
Definition find_document_in_folder (drive_service : Service)
  (doc_name folder_id : str) : result (option str) :=
  match find_document_try drive_service doc_name folder_id with
  | Raise (HttpError _ _) => Ok None
  | r => r
  end.

(** Lines 57-65: the lookup key, from the event. *)
Definition extract_doc_name (event : Event) : result (option str) :=
  if contains (ev_doc_name event) then
    subscript "doc_name" (ev_doc_name event)
  else if contains (ev_queryStringParameters event)
          && truthy_dict (get (ev_queryStringParameters event) None) then
    qs <- subscript "queryStringParameters" (ev_queryStringParameters event) ;;
    Ok (dict_get (get qs []) (lit "doc_name"))
  else if contains (ev_body event) then
    raw <- subscript "body" (ev_body event) ;;
    body <- match raw with
            | BodyStr s => json_loads w s
            | _ => Ok raw
            end ;;
    match body with
    | BodyDict d => Ok (dict_get d (lit "doc_name"))
    | BodyStr _ =>
        Raise (AttributeError (lit "'str' object has no attribute 'get'"))
    | BodyNone =>
        Raise (AttributeError (lit "'NoneType' object has no attribute 'get'"))
    end
  else Ok None.

(** Lines 56-163: the outer [try] block. *)
Definition handler_try (event : Event) : result Response :=
  doc_name <- extract_doc_name event ;;
  if negb (truthy_opt doc_name) then
    Ok (error_response 400 (lit "Missing doc_name parameter"))
  else
  let doc_name := get doc_name [] in
  let credentials_json := environ_get w "GOOGLE_CREDENTIALS_JSON" in
  if negb (truthy_opt credentials_json) then
    Ok (error_response 500
          (lit "GOOGLE_CREDENTIALS_JSON environment variable not set"))
  else
  let credentials_json := get credentials_json [] in
  let folder_id := environ_get w "GOOGLE_DRIVE_FOLDER_ID" in
  if negb (truthy_opt folder_id) then
    Ok (error_response 500
          (lit "GOOGLE_DRIVE_FOLDER_ID environment variable not set"))
  else
  let folder_id := get folder_id [] in
  match b64decode_json_loads w credentials_json with
  | inl e =>
      Ok (error_response 500 (lit "Failed to decode credentials: " ++ e))
  | inr credentials_data =>
      credentials <- from_service_account_info w credentials_data SCOPES ;;
      drive_service <- build w "drive" "v3" credentials ;;
      doc_id <- find_document_in_folder drive_service doc_name folder_id ;;
      if negb (truthy_opt doc_id) then
        Ok (error_response 404
              (lit "Document " ++ dquote ++ doc_name ++ dquote
               ++ lit " not found in the specified folder"))
      else
      let doc_id := get doc_id [] in
      docs_service <- build w "docs" "v1" credentials ;;
      document <- documents_get_execute w docs_service doc_id ;;
      html_content <- convert_google_doc_to_html document ;;
      Ok {| statusCode := 200; headers := html_headers;
            body := Html html_content |}
  end.

(** Lines 166-170. *)
Definition http_error_message (status : Z) (error_details : str) : str :=
  let error_message :=
    lit "Google API Error: " ++ str_of_int status ++ lit " - "
    ++ error_details in
  if (status =? 404)%Z then lit "Document not found"
  else if (status =? 403)%Z then
    lit "Access denied. Service account may not have permission to access this document or folder"
  else error_message.

(** [str(e)] for the exceptions that reach the last [except] clause. *)
Definition exn_str (e : exn) : str :=
  match e with
  | KeyError key => lit "'" ++ lit key ++ lit "'"
  | AttributeError msg => msg
  | Exception msg => msg
  | HttpError _ error_details => error_details
  end.

(** Lines 34-191. *)
Definition lambda_handler (event : Event) : Response :=
  match handler_try event with
  | Ok response => response
  | Raise (HttpError status error_details) =>
      error_response status (http_error_message status error_details)
  | Raise e =>
      error_response 500 (lit "Internal server error: " ++ exn_str e)
  end.

(** The request gets as far as the Drive lookup: a lookup key was
    supplied, both environment variables are set, and the credentials and
    the Drive service were built. *)
Definition reaches_lookup (event : Event) (doc_name folder_id : str)
  (credentials : Credentials) (drive_service : Service) : Prop :=
  extract_doc_name event = Ok (Some doc_name)
  /\ truthy doc_name = true
  /\ (exists credentials_json credentials_data,
        environ_get w "GOOGLE_CREDENTIALS_JSON" = Some credentials_json
        /\ truthy credentials_json = true
        /\ b64decode_json_loads w credentials_json = inr credentials_data
        /\ from_service_account_info w credentials_data SCOPES
           = Ok credentials)
  /\ environ_get w "GOOGLE_DRIVE_FOLDER_ID" = Some folder_id
  /\ truthy folder_id = true
  /\ build w "drive" "v3" credentials = Ok drive_service.

Definition not_found_message (doc_name : str) : str :=
  lit "Document " ++ dquote ++ doc_name ++ dquote
  ++ lit " not found in the specified folder".

End Handler.

End Lambda.

(* ================================================================== *)
(** ** Closed forms of the rendering loops *)

(** What each loop of [convert_google_doc_to_html] appends, written with
    [map] and [flat_map] over the input sequence.  The loops are proved
    equal to these below; the properties of the renderer are then read off
    the closed forms. *)

Module Closed.

(** The markup one paragraph element contributes to [text_parts]. *)
Definition run_markup (elem : ParagraphElement) : list str :=
  match textRun elem with
  | Some text_run =>
      [ apply_text_styles (get (content text_run) [])
          (get (textStyle text_run) empty_TextStyle) ]
  | None => []
  end.

(** The plain text one paragraph element carries. *)
Definition run_text (elem : ParagraphElement) : list str :=
  match textRun elem with
  | Some text_run => [ get (content text_run) [] ]
  | None => []
  end.

(** The styled markup of the runs of a paragraph, joined, not trimmed. *)
Definition joined_markup (p : Paragraph) : str :=
  join [] (flat_map run_markup (get (elements p) [])).

(** The plain text of the runs of a paragraph, concatenated. *)
Definition plain_text (p : Paragraph) : str :=
  join [] (flat_map run_text (get (elements p) [])).

Definition named_style (p : Paragraph) : str :=
  get (namedStyleType (get (paragraphStyle p) empty_ParagraphStyle))
    (lit "NORMAL_TEXT").

Definition paragraph_tag (p : Paragraph) : string :=
  if str_eqb (named_style p) (lit "HEADING_1") then "h1"
  else if str_eqb (named_style p) (lit "HEADING_2") then "h2"
  else if str_eqb (named_style p) (lit "HEADING_3") then "h3"
  else "p".

(** An element node [<tag>inner</tag>]. *)
Definition node (tag : string) (inner : str) : str :=
  lit "<" ++ lit tag ++ lit ">" ++ inner ++ lit "</" ++ lit tag ++ lit ">".

Definition paragraph_nodes (p : Paragraph) : list str :=
  if truthy (strip (joined_markup p))
  then [ node (paragraph_tag p) (strip (joined_markup p)) ]
  else [].

(** The run texts of one block of a table cell. *)
Definition block_texts (cell_elem : StructuralElement) : list str :=
  match paragraph cell_elem with
  | Some p => flat_map run_text (get (elements p) [])
  | None => []
  end.

(** The plain text of every run of every block of a cell. *)
Definition cell_plain_text (cell : TableCell) : str :=
  join [] (flat_map block_texts (get (cell_content cell) [])).

Definition cell_node (cell : TableCell) : str :=
  node "td" (strip (cell_plain_text cell)).

Definition row_nodes (row : TableRow) : list str :=
  [ lit "<tr>" ] ++ map cell_node (get (tableCells row) [])
  ++ [ lit "</tr>" ].

Definition table_nodes (t : Table) : list str :=
  [ table_open ] ++ flat_map row_nodes (get (tableRows t) [])
  ++ [ lit "</table>" ].

Definition element_nodes (element : StructuralElement) : list str :=
  match paragraph element with
  | Some p => paragraph_nodes p
  | None =>
      match table element with
      | Some t => table_nodes t
      | None => []
      end
  end.

(** A paragraph element none of whose style flags is set. *)
Definition unstyled (elem : ParagraphElement) : bool :=
  match textRun elem with
  | Some text_run =>
      let text_style := get (textStyle text_run) empty_TextStyle in
      negb (flag (bold text_style) || flag (italic text_style)
            || flag (underline text_style))
  | None => true
  end.

(** One style marker around [s], present when [on] holds. *)
Definition marker (cls : string) (on : bool) (s : str) : str :=
  if on then span_open cls ++ s ++ lit "</span>" else s.

End Closed.

Import Closed.

(* ================================================================== *)
(** ** Sample inputs *)

Module Sample.

Definition style (b i u : bool) : TextStyle :=
  {| bold := Some b; italic := Some i; underline := Some u |}.

Definition run (text : string) (b i u : bool) : ParagraphElement :=
  {| textRun := Some {| content := Some (lit text);
                        textStyle := Some (style b i u) |} |}.

Definition plain_run (text : str) : ParagraphElement :=
  {| textRun := Some {| content := Some text; textStyle := None |} |}.

Definition para (named : string) (runs : list ParagraphElement) : Paragraph :=
  {| elements := Some runs;
     paragraphStyle := Some {| namedStyleType := Some (lit named) |} |}.

Definition para_element (p : Paragraph) : StructuralElement :=
  Build_StructuralElement (Some p) None.

Definition cell (text : string) (b : bool) : TableCell :=
  Build_TableCell
    (Some [ para_element (para "NORMAL_TEXT" [ run text b false false ]) ]).

(** A heading whose only run is three spaces in bold. *)
Definition bold_blank_heading : Paragraph :=
  para "HEADING_2" [ run "   " true false false ].

(** A heading whose only run is two unstyled spaces. *)
Definition blank_heading : Paragraph :=
  para "HEADING_2" [ run "  " false false false ].

(** A paragraph as the Docs API delivers it: the last run ends in a
    line feed. *)
Definition hello_newline : Paragraph :=
  para "NORMAL_TEXT" [ plain_run (lit "Hello" ++ newline) ].

Definition hello_bold : Paragraph :=
  para "NORMAL_TEXT" [ run "Hello" true false false ].

Definition title_heading : Paragraph :=
  para "TITLE" [ run "Log" false false false ].

(** The 2x2 table with cell texts A, B, C, D; the runs of the first row
    are bold. *)
Definition table_2x2 : Table :=
  Build_Table
    (Some [ Build_TableRow (Some [ cell "A" true; cell "B" true ]);
            Build_TableRow (Some [ cell "C" false; cell "D" false ]) ]).


(** A deployment in which configuration, credentials and the service
    objects are all in order; only the Drive listing and the Docs fetch are
    left open. *)
Definition world (listing : result Lambda.FileList)
  (fetched : result Document) : Lambda.World unit unit unit :=
  {| Lambda.environ_get := fun key =>
       if String.eqb key "GOOGLE_CREDENTIALS_JSON" then Some (lit "e30=")
       else if String.eqb key "GOOGLE_DRIVE_FOLDER_ID" then Some (lit "folder-1")
       else None;
     Lambda.json_loads := fun _ => Raise (Exception (lit "Expecting value"));
     Lambda.b64decode_json_loads := fun _ => inr tt;
     Lambda.from_service_account_info := fun _ _ => Ok tt;
     Lambda.build := fun _ _ _ => Ok tt;
     Lambda.files_list_execute := fun _ _ => listing;
     Lambda.documents_get_execute := fun _ _ => fetched |}.

Definition event : Lambda.Event :=
  {| Lambda.ev_doc_name := Some (Some (lit "Minutes"));
     Lambda.ev_queryStringParameters := None;
     Lambda.ev_body := None |}.

Definition one_file : Lambda.FileList :=
  {| Lambda.files :=
       Some [ {| Lambda.file_id := Some (lit "doc-1");
                 Lambda.file_name := Some (lit "Minutes") |} ] |}.

Definition empty_document : Document := {| title := None; body := None |}.

(** The Drive listing is refused with status 403. *)
Definition lookup_denied : Lambda.World unit unit unit :=
  world (Raise (HttpError 403 (lit "forbidden"))) (Ok empty_document).

(** The document is listed, and fetching it is refused with status 403. *)
Definition fetch_denied : Lambda.World unit unit unit :=
  world (Ok one_file) (Raise (HttpError 403 (lit "forbidden"))).

(** The document is listed, and fetching it is throttled with status 429. *)
Definition fetch_throttled : Lambda.World unit unit unit :=
  world (Ok one_file) (Raise (HttpError 429 (lit "rate limit"))).

End Sample.

(* ================================================================== *)
(** ** Further predicates, requests and inputs *)

Module Layout.

(** A paragraph element with nothing to show: no text run, or a text run
    with no style flag set whose content is whitespace only. *)
Definition blank_run (elem : ParagraphElement) : bool :=
  match textRun elem with
  | Some text_run =>
      unstyled elem && forallb isspace (get (content text_run) [])
  | None => true
  end.




End Layout.

Import Layout.

Module Requests.

(** The event [{'doc_name': v}]. *)
Definition event_direct (v : option str) : Lambda.Event :=
  {| Lambda.ev_doc_name := Some v;
     Lambda.ev_queryStringParameters := None;
     Lambda.ev_body := None |}.

(** An event without a ['doc_name'] key, with the given query string
    parameters and body. *)
Definition event_via (query : option (option Lambda.dict))
  (body : option Lambda.BodyValue) : Lambda.Event :=
  {| Lambda.ev_doc_name := None;
     Lambda.ev_queryStringParameters := query;
     Lambda.ev_body := body |}.

(** The exception [e] was raised by one of the calls the handler makes
    outside the Drive listing. *)
Definition raised_outside_lookup {CredentialsData Credentials Service : Type}
  (w : Lambda.World CredentialsData Credentials Service) (e : exn) : Prop :=
  (exists s, Lambda.json_loads w s = Raise e)
  \/ (exists data, Lambda.from_service_account_info w data Lambda.SCOPES
                   = Raise e)
  \/ (exists api version credentials,
        Lambda.build w api version credentials = Raise e)
  \/ (exists docs_service doc_id,
        Lambda.documents_get_execute w docs_service doc_id = Raise e).

Definition ok_response (html_content : str) : Lambda.Response :=
  {| Lambda.statusCode := 200; Lambda.headers := Lambda.html_headers;
     Lambda.body := Lambda.Html html_content |}.

End Requests.

Import Requests.

Module Trial.

(** The text Hello in two runs and in one. *)
Definition hello_two_runs : Paragraph :=
  Sample.para "NORMAL_TEXT"
    [ Sample.run "Hel" false false false; Sample.run "lo" false false false ].

Definition hello_one_run : Paragraph :=
  Sample.para "NORMAL_TEXT" [ Sample.run "Hello" false false false ].

(** The document is listed and fetched. *)
Definition served : Lambda.World unit unit unit :=
  Sample.world (Ok Sample.one_file) (Ok Sample.empty_document).

(** The page of the document without title and body. *)
Definition empty_page : str :=
  join newline (html_head (lit "Untitled Document") ++ html_tail).

(** An empty doc_name beside query string parameters that hold a name. *)
Definition shadowed_event : Lambda.Event :=
  {| Lambda.ev_doc_name := Some (Some []);
     Lambda.ev_queryStringParameters :=
       Some (Some [ (lit "doc_name", Some (lit "Minutes")) ]);
     Lambda.ev_body := None |}.

(** A deployment with no environment variable set. *)
Definition unconfigured : Lambda.World unit unit unit :=
  {| Lambda.environ_get := fun _ => None;
     Lambda.json_loads := fun _ => Raise (Exception (lit "Expecting value"));
     Lambda.b64decode_json_loads := fun _ => inr tt;
     Lambda.from_service_account_info := fun _ _ => Ok tt;
     Lambda.build := fun _ _ _ => Ok tt;
     Lambda.files_list_execute := fun _ _ => Ok Sample.one_file;
     Lambda.documents_get_execute := fun _ _ => Ok Sample.empty_document |}.

(** A listing whose only entry has a name and no id. *)
Definition nameless_listing : Lambda.FileList :=
  {| Lambda.files :=
       Some [ {| Lambda.file_id := None;
                 Lambda.file_name := Some (lit "Minutes") |} ] |}.

Definition listed_without_id : Lambda.World unit unit unit :=
  Sample.world (Ok nameless_listing) (Ok Sample.empty_document).


End Trial.

(* ================================================================== *)
(** ** Facts about [strip] and [join] *)

Lemma join_empty_concat (parts : list str) : join [] parts = List.concat parts.
Proof.
  induction parts as [|p rest IH]; [reflexivity|].
  destruct rest as [|q rest'].
  - simpl. now rewrite app_nil_r.
  - change (join [] (p :: q :: rest')) with (p ++ [] ++ join [] (q :: rest')).
    rewrite IH. reflexivity.
Qed.

Lemma lstrip_split (s : str) :
  exists l, s = l ++ lstrip s /\ forallb isspace l = true.
Proof.
  induction s as [|c t [l [Heq Hl]]].
  - exists []. split; reflexivity.
  - simpl. destruct (isspace c) eqn:Hc.
    + exists (c :: l). split.
      * simpl. now rewrite <- Heq.
      * simpl. now rewrite Hc, Hl.
    + exists []. split; reflexivity.
Qed.

Lemma lstrip_head (s : str) (c : N) (t : str) :
  lstrip s = c :: t -> isspace c = false.
Proof.
  induction s as [|d u IH]; simpl; [discriminate|].
  destruct (isspace d) eqn:Hd; [exact IH|].
  intros H. injection H as <- _. exact Hd.
Qed.

Lemma lstrip_nil_iff (s : str) :
  lstrip s = [] <-> forallb isspace s = true.
Proof.
  induction s as [|c t IH]; simpl.
  - split; reflexivity.
  - destruct (isspace c); simpl; [exact IH|].
    split; discriminate.
Qed.

Lemma forallb_rev {A} (f : A -> bool) (l : list A) :
  forallb f (rev l) = forallb f l.
Proof.
  induction l as [|x l IH]; [reflexivity|].
  simpl. rewrite forallb_app, IH. simpl.
  rewrite andb_true_r. apply andb_comm.
Qed.

Lemma rstrip_split (s : str) :
  exists r, s = rstrip s ++ r /\ forallb isspace r = true.
Proof.
  unfold rstrip.
  destruct (lstrip_split (rev s)) as [l [Heq Hl]].
  exists (rev l). split.
  - rewrite <- rev_app_distr, <- Heq. now rewrite rev_involutive.
  - now rewrite forallb_rev.
Qed.

Lemma rstrip_nil_iff (s : str) :
  rstrip s = [] <-> forallb isspace s = true.
Proof.
  unfold rstrip. rewrite <- (forallb_rev isspace s), <- lstrip_nil_iff.
  split; intros H.
  - apply (f_equal (@rev N)) in H. now rewrite rev_involutive in H.
  - now rewrite H.
Qed.

(** [strip] removes a whitespace prefix and a whitespace suffix and
    nothing else. *)
Lemma strip_split (s : str) :
  exists l r, s = l ++ strip s ++ r
              /\ forallb isspace l = true /\ forallb isspace r = true.
Proof.
  destruct (lstrip_split s) as [l [Hl Hls]].
  destruct (rstrip_split (lstrip s)) as [r [Hr Hrs]].
  exists l, r. unfold strip. repeat split; try assumption.
  now rewrite <- Hr.
Qed.

Lemma strip_nil_iff (s : str) :
  strip s = [] <-> forallb isspace s = true.
Proof.
  unfold strip. rewrite rstrip_nil_iff.
  destruct (lstrip_split s) as [l [Heq Hl]].
  split; intros H.
  - rewrite Heq, forallb_app, Hl, H. reflexivity.
  - rewrite Heq, forallb_app in H.
    apply andb_true_iff in H. tauto.
Qed.

(** What is left after [strip] neither starts nor ends with whitespace. *)
Lemma strip_first (s : str) (c : N) (t : str) :
  strip s = c :: t -> isspace c = false.
Proof.
  unfold strip, rstrip. intros H.
  destruct (lstrip s) as [|d u] eqn:Hs; [discriminate|].
  assert (Hd : isspace d = false) by (eapply lstrip_head; eassumption).
  destruct (lstrip_split (rev (d :: u))) as [l [Heq Hl]].
  apply (f_equal (@rev N)) in Heq.
  rewrite rev_involutive, rev_app_distr, H in Heq.
  simpl in Heq. injection Heq as Hdc _. subst. exact Hd.
Qed.

Lemma strip_last (s t : str) (c : N) :
  strip s = t ++ [c] -> isspace c = false.
Proof.
  unfold strip, rstrip. intros H.
  apply (f_equal (@rev N)) in H.
  rewrite rev_involutive, rev_app_distr in H. simpl in H.
  eapply lstrip_head; eassumption.
Qed.

Lemma truthy_false_iff (s : str) : truthy s = false <-> s = [].
Proof. destruct s; simpl; split; congruence. Qed.

Lemma truthy_true_iff (s : str) : truthy s = true <-> s <> [].
Proof. destruct s; simpl; split; congruence. Qed.

Lemma str_eqb_eq (a b : str) : str_eqb a b = true <-> a = b.
Proof.
  revert b. induction a as [|x a IH]; intros [|y b]; simpl;
    try (split; congruence).
  rewrite andb_true_iff, N.eqb_eq, IH. split.
  - intros [-> ->]. reflexivity.
  - intros H. injection H as -> ->. split; reflexivity.
Qed.

Lemma str_eqb_neq (a b : str) : str_eqb a b = false <-> a <> b.
Proof.
  rewrite <- str_eqb_eq. destruct (str_eqb a b); split; congruence.
Qed.

(* ================================================================== *)
(** ** The loops equal their closed forms *)

(** A loop whose body appends [f x] to the accumulator appends the
    concatenation of the [f x], in the order of the input. *)
Lemma for_each_appends {A} (step : list str -> A -> result (list str))
  (f : A -> list str) :
  (forall acc x, step acc x = Ok (acc ++ f x)) ->
  forall xs acc, for_each step xs acc = Ok (acc ++ flat_map f xs).
Proof.
  intros Hstep xs. induction xs as [|x rest IH]; intros acc; simpl.
  - now rewrite app_nil_r.
  - rewrite Hstep. simpl. rewrite IH. now rewrite app_assoc.
Qed.

Lemma flat_map_singleton {A B} (f : A -> B) (xs : list A) :
  flat_map (fun x => [f x]) xs = map f xs.
Proof. induction xs as [|x xs IH]; simpl; congruence. Qed.

Lemma text_parts_step_closed (text_parts : list str) (elem : ParagraphElement) :
  text_parts_step text_parts elem = Ok (text_parts ++ run_markup elem).
Proof.
  unfold text_parts_step, run_markup.
  destruct (textRun elem) as [tr|]; simpl; [reflexivity|].
  now rewrite app_nil_r.
Qed.

Lemma render_paragraph_closed (html_parts : list str) (p : Paragraph) :
  render_paragraph html_parts p = Ok (html_parts ++ paragraph_nodes p).
Proof.
  unfold render_paragraph.
  rewrite (for_each_appends text_parts_step run_markup text_parts_step_closed).
  simpl. unfold paragraph_nodes, paragraph_tag, named_style, joined_markup.
  destruct (truthy _); [|now rewrite app_nil_r].
  repeat (destruct (str_eqb _ _); [reflexivity|]).
  reflexivity.
Qed.

Lemma cell_run_step_closed (acc : list str) (pe : ParagraphElement) :
  cell_run_step acc pe = Ok (acc ++ run_text pe).
Proof.
  unfold cell_run_step, run_text.
  destruct (textRun pe) as [tr|]; simpl; [reflexivity|].
  now rewrite app_nil_r.
Qed.

Lemma cell_elem_step_closed (acc : list str) (cell_elem : StructuralElement) :
  cell_elem_step acc cell_elem = Ok (acc ++ block_texts cell_elem).
Proof.
  unfold cell_elem_step, block_texts.
  destruct (paragraph cell_elem) as [p|]; simpl.
  - apply for_each_appends. exact cell_run_step_closed.
  - now rewrite app_nil_r.
Qed.

Lemma cell_step_closed (html_parts : list str) (cell : TableCell) :
  cell_step html_parts cell = Ok (html_parts ++ [cell_node cell]).
Proof.
  unfold cell_step.
  rewrite (for_each_appends cell_elem_step block_texts cell_elem_step_closed).
  reflexivity.
Qed.

Lemma row_step_closed (html_parts : list str) (row : TableRow) :
  row_step html_parts row = Ok (html_parts ++ row_nodes row).
Proof.
  unfold row_step.
  rewrite (for_each_appends cell_step (fun c => [cell_node c]) cell_step_closed).
  simpl. rewrite flat_map_singleton. unfold row_nodes.
  now rewrite <- !app_assoc.
Qed.

Lemma render_table_closed (html_parts : list str) (t : Table) :
  render_table html_parts t = Ok (html_parts ++ table_nodes t).
Proof.
  unfold render_table.
  rewrite (for_each_appends row_step row_nodes row_step_closed).
  simpl. unfold table_nodes. now rewrite <- !app_assoc.
Qed.

Lemma element_step_closed (html_parts : list str) (element : StructuralElement) :
  element_step html_parts element = Ok (html_parts ++ element_nodes element).
Proof.
  unfold element_step, element_nodes.
  destruct (paragraph element) as [p|]; simpl.
  - apply render_paragraph_closed.
  - destruct (table element) as [t|]; simpl.
    + apply render_table_closed.
    + now rewrite app_nil_r.
Qed.

Lemma html_parts_of_closed (document : Document) :
  html_parts_of document =
  Ok (html_head (get (title document) (lit "Untitled Document"))
      ++ flat_map element_nodes
           (get (body_content (get (body document) empty_Body)) [])
      ++ html_tail).
Proof.
  unfold html_parts_of.
  rewrite (for_each_appends element_step element_nodes element_step_closed).
  cbn [bind]. now rewrite <- app_assoc.
Qed.

Lemma unstyled_markup_is_text (elem : ParagraphElement) :
  unstyled elem = true -> run_markup elem = run_text elem.
Proof.
  unfold unstyled, run_markup, run_text, apply_text_styles.
  destruct (textRun elem) as [tr|]; [|reflexivity].
  cbv zeta. rewrite negb_true_iff, !orb_false_iff.
  intros [[-> ->] ->]. reflexivity.
Qed.

Lemma unstyled_runs_markup_is_text (es : list ParagraphElement) :
  forallb unstyled es = true -> flat_map run_markup es = flat_map run_text es.
Proof.
  induction es as [|e es IH]; simpl; [reflexivity|].
  rewrite andb_true_iff. intros [He Hes].
  now rewrite (unstyled_markup_is_text e He), IH.
Qed.

(** The markers [apply_text_styles] puts around a text are fixed by the
    flags; the text itself is passed through. *)
Lemma style_markers_surround_text (text_style : TextStyle) :
  exists before after,
    forall text, apply_text_styles text text_style = before ++ text ++ after.
Proof.
  exists ((if flag (underline text_style) then span_open "underline" else [])
          ++ (if flag (italic text_style) then span_open "italic" else [])
          ++ (if flag (bold text_style) then span_open "bold" else [])),
         ((if flag (bold text_style) then lit "</span>" else [])
          ++ (if flag (italic text_style) then lit "</span>" else [])
          ++ (if flag (underline text_style) then lit "</span>" else [])).
  intros text. unfold apply_text_styles.
  destruct (flag (bold text_style)), (flag (italic text_style)),
    (flag (underline text_style)); cbv zeta iota;
    rewrite ?app_nil_r, <- ?app_assoc; reflexivity.
Qed.

Lemma forallb_false_witness {A} (f : A -> bool) (l : list A) :
  forallb f l = false -> exists x, In x l /\ f x = false.
Proof.
  induction l as [|x l IH]; simpl; [discriminate|].
  destruct (f x) eqn:Hx; simpl.
  - intros H. destruct (IH H) as [y [Hy Hfy]]. exists y. auto.
  - intros _. exists x. auto.
Qed.

(** A string is blank after [strip] exactly when every character of it
    is whitespace. *)
Lemma strip_nonblank_iff (s : str) :
  strip s <> [] <-> exists c, In c s /\ isspace c = false.
Proof.
  rewrite strip_nil_iff. split.
  - intros H. apply forallb_false_witness.
    destruct (forallb isspace s); congruence.
  - intros [c [Hin Hc]] Hall.
    rewrite forallb_forall in Hall. specialize (Hall c Hin). congruence.
Qed.

Lemma run_text_within_markup (elem : ParagraphElement) (c : N) :
  In c (List.concat (run_text elem)) -> In c (List.concat (run_markup elem)).
Proof.
  unfold run_text, run_markup.
  destruct (textRun elem) as [tr|]; simpl; [|tauto].
  rewrite !app_nil_r.
  destruct (style_markers_surround_text (get (textStyle tr) empty_TextStyle))
    as [before [after H]].
  rewrite H, !in_app_iff. tauto.
Qed.

Lemma runs_text_within_markup (es : list ParagraphElement) (c : N) :
  In c (List.concat (flat_map run_text es)) ->
  In c (List.concat (flat_map run_markup es)).
Proof.
  induction es as [|e es IH]; simpl; [tauto|].
  rewrite !concat_app, !in_app_iff.
  intros [H|H]; [left; now apply run_text_within_markup | right; auto].
Qed.

(** A paragraph whose plain text is not blank has markup that is not
    blank: the paragraphs with text are among the paragraphs the code
    emits. *)
Lemma plain_nonblank_markup_nonblank (p : Paragraph) :
  strip (plain_text p) <> [] -> strip (joined_markup p) <> [].
Proof.
  rewrite !strip_nonblank_iff.
  unfold plain_text, joined_markup. rewrite !join_empty_concat.
  intros [c [Hin Hc]]. exists c. split; [|exact Hc].
  now apply runs_text_within_markup.
Qed.

(* ================================================================== *)
(** ** Paragraphs *)

(** C1, as the code has it: a paragraph none of whose runs has a style flag
    set, and whose concatenated plain text is all whitespace, appends
    nothing to the output, whatever its named style (the paragraph [p]
    ranges over every [namedStyleType], headings included). *)
Theorem blank_unstyled_paragraph_emits_nothing
  (html_parts : list str) (p : Paragraph) :
  forallb unstyled (get (elements p) []) = true ->
  strip (plain_text p) = [] ->
  render_paragraph html_parts p = Ok html_parts.
Proof.
  intros Hplain Hblank.
  rewrite render_paragraph_closed.
  unfold paragraph_nodes, joined_markup.
  rewrite (unstyled_runs_markup_is_text _ Hplain).
  fold (plain_text p). rewrite Hblank. simpl.
  now rewrite app_nil_r.
Qed.

Lemma blank_unstyled_paragraph_witness :
  forallb unstyled (get (elements Sample.blank_heading) []) = true
  /\ strip (plain_text Sample.blank_heading) = []
  /\ render_paragraph [] Sample.blank_heading = Ok [].
Proof.
  split; [reflexivity|]. split; [reflexivity|].
  apply (blank_unstyled_paragraph_emits_nothing [] Sample.blank_heading);
    reflexivity.
Defined.

(** C1 fails when a flag is set: the plain text of the heading is three
    spaces, yet a heading node holding the bold span is emitted. *)
Lemma bold_blank_heading_emits_node :
  strip (plain_text Sample.bold_blank_heading) = []
  /\ render_paragraph [] Sample.bold_blank_heading
     = Ok [ lit "<h2>" ++ span_open "bold" ++ lit "   </span></h2>" ]
  /\ render_paragraph [] Sample.bold_blank_heading <> Ok [].
Proof.
  split; [reflexivity|]. split; [reflexivity|].
  vm_compute. discriminate.
Qed.

(** C2, as the code has it: the node of a paragraph whose joined markup
    is not blank wraps that markup with its leading and trailing
    whitespace removed; the removed parts are whitespace only, what is
    kept starts and ends with a character that is not whitespace, and
    everything between is the joined markup of the runs, unchanged. *)
Theorem paragraph_node_wraps_trimmed_markup
  (html_parts : list str) (p : Paragraph) :
  strip (joined_markup p) <> [] ->
  render_paragraph html_parts p
  = Ok (html_parts ++ [ node (paragraph_tag p) (strip (joined_markup p)) ])
  /\ joined_markup p
     = List.concat (flat_map run_markup (get (elements p) []))
  /\ (exists l r,
        joined_markup p = l ++ strip (joined_markup p) ++ r
        /\ forallb isspace l = true /\ forallb isspace r = true)
  /\ (forall c t, strip (joined_markup p) = c :: t -> isspace c = false)
  /\ (forall t c, strip (joined_markup p) = t ++ [c] -> isspace c = false).
Proof.
  intros Hne. split; [|split; [|split; [|split]]].
  - rewrite render_paragraph_closed. unfold paragraph_nodes.
    apply truthy_true_iff in Hne. now rewrite Hne.
  - apply join_empty_concat.
  - apply strip_split.
  - apply strip_first.
  - intros t c. apply strip_last.
Qed.

Lemma paragraph_node_wraps_trimmed_markup_witness :
  render_paragraph [] Sample.hello_newline = Ok [ lit "<p>Hello</p>" ].
Proof.
  refine (proj1 (paragraph_node_wraps_trimmed_markup [] Sample.hello_newline _)).
  vm_compute. discriminate.
Defined.

(** C2 fails on a run that ends in a line feed: the joined markup is
    [Hello] followed by the line feed, and the node holds [Hello] only. *)
Lemma trailing_newline_is_trimmed :
  joined_markup Sample.hello_newline = lit "Hello" ++ newline
  /\ render_paragraph [] Sample.hello_newline = Ok [ lit "<p>Hello</p>" ]
  /\ render_paragraph [] Sample.hello_newline
     <> Ok [ lit "<p>" ++ joined_markup Sample.hello_newline ++ lit "</p>" ].
Proof.
  split; [reflexivity|]. split; [reflexivity|].
  vm_compute. discriminate.
Qed.

(** C4: the style markers of a run nest bold innermost, then italic,
    then underline; each flag adds its own marker and nothing else, and a
    run with no flag set is its text. *)
Theorem style_markers_nest_bold_italic_underline
  (text : str) (text_style : TextStyle) :
  apply_text_styles text text_style
  = marker "underline" (flag (underline text_style))
      (marker "italic" (flag (italic text_style))
         (marker "bold" (flag (bold text_style)) text))
  /\ apply_text_styles text (Sample.style true true true)
     = span_open "underline" ++ span_open "italic" ++ span_open "bold"
       ++ text ++ lit "</span></span></span>"
  /\ apply_text_styles text (Sample.style true false false)
     = span_open "bold" ++ text ++ lit "</span>"
  /\ apply_text_styles text (Sample.style false true false)
     = span_open "italic" ++ text ++ lit "</span>"
  /\ apply_text_styles text (Sample.style false false true)
     = span_open "underline" ++ text ++ lit "</span>"
  /\ apply_text_styles text (Sample.style false false false) = text
  /\ apply_text_styles text empty_TextStyle = text.
Proof.
  split; [reflexivity|].
  split.
  { unfold apply_text_styles. simpl flag. cbv iota zeta.
    unfold span_open. rewrite <- !app_assoc. reflexivity. }
  repeat split; reflexivity.
Qed.

(** C5: a paragraph that is emitted (its trimmed markup is not empty,
    which holds whenever its plain text is not blank) gets its tag from the
    named style: HEADING_1, HEADING_2 and HEADING_3 give h1, h2 and h3, and
    every other value, an absent one included, gives p. *)
Theorem heading_mapping_is_total (html_parts : list str) (p : Paragraph) :
  strip (joined_markup p) <> [] ->
  let inner := strip (joined_markup p) in
  (named_style p = lit "HEADING_1" ->
   render_paragraph html_parts p
   = Ok (html_parts ++ [ lit "<h1>" ++ inner ++ lit "</h1>" ]))
  /\ (named_style p = lit "HEADING_2" ->
      render_paragraph html_parts p
      = Ok (html_parts ++ [ lit "<h2>" ++ inner ++ lit "</h2>" ]))
  /\ (named_style p = lit "HEADING_3" ->
      render_paragraph html_parts p
      = Ok (html_parts ++ [ lit "<h3>" ++ inner ++ lit "</h3>" ]))
  /\ (named_style p <> lit "HEADING_1" ->
      named_style p <> lit "HEADING_2" ->
      named_style p <> lit "HEADING_3" ->
      render_paragraph html_parts p
      = Ok (html_parts ++ [ lit "<p>" ++ inner ++ lit "</p>" ]))
  /\ (paragraphStyle p = None ->
      render_paragraph html_parts p
      = Ok (html_parts ++ [ lit "<p>" ++ inner ++ lit "</p>" ])).
Proof.
  intros Hne inner.
  assert (Hr : render_paragraph html_parts p
               = Ok (html_parts ++ [ node (paragraph_tag p) inner ])).
  { rewrite render_paragraph_closed. unfold paragraph_nodes.
    apply truthy_true_iff in Hne. now rewrite Hne. }
  rewrite Hr. unfold paragraph_tag.
  split; [|split; [|split; [|split]]].
  - intros ->. reflexivity.
  - intros ->. reflexivity.
  - intros ->. reflexivity.
  - intros H1 H2 H3.
    apply str_eqb_neq in H1, H2, H3. now rewrite H1, H2, H3.
  - unfold named_style. intros ->. reflexivity.
Qed.

Lemma heading_mapping_is_total_witness :
  render_paragraph [] Sample.title_heading = Ok [ lit "<p>Log</p>" ].
Proof.
  refine (proj1 (proj2 (proj2 (proj2
    (heading_mapping_is_total [] Sample.title_heading _)))) _ _ _);
    vm_compute; discriminate.
Defined.

(* ================================================================== *)
(** ** Documents and tables *)

(** C6: the lines of the output are the fixed head, then the nodes of
    each element in the order of the input, then the fixed tail; inside a
    paragraph the markup of the runs is concatenated in run order, inside a
    table the rows follow in row order, and inside a row the cells in cell
    order.  Every item of each sequence is visited once. *)
Theorem rendering_follows_input_order :
  (forall document,
     html_parts_of document
     = Ok (html_head (get (title document) (lit "Untitled Document"))
           ++ flat_map element_nodes
                (get (body_content (get (body document) empty_Body)) [])
           ++ html_tail))
  /\ (forall html_parts before after,
        for_each element_step (before ++ after) html_parts
        = Ok (html_parts ++ flat_map element_nodes before
              ++ flat_map element_nodes after))
  /\ (forall html_parts element,
        element_step html_parts element
        = Ok (html_parts
              ++ match paragraph element, table element with
                 | Some p, _ =>
                     if truthy (strip (joined_markup p))
                     then [ node (paragraph_tag p) (strip (joined_markup p)) ]
                     else []
                 | None, Some t =>
                     [ table_open ]
                     ++ flat_map
                          (fun row =>
                             [ lit "<tr>" ]
                             ++ map cell_node (get (tableCells row) [])
                             ++ [ lit "</tr>" ])
                          (get (tableRows t) [])
                     ++ [ lit "</table>" ]
                 | None, None => []
                 end))
  /\ (forall p,
        joined_markup p
        = List.concat (flat_map run_markup (get (elements p) [])))
  /\ (forall text_parts before after,
        for_each text_parts_step (before ++ after) text_parts
        = Ok (text_parts ++ flat_map run_markup before
              ++ flat_map run_markup after)).
Proof.
  split; [exact html_parts_of_closed|].
  split.
  { intros html_parts before after.
    rewrite (for_each_appends element_step element_nodes element_step_closed).
    now rewrite flat_map_app. }
  split.
  { intros html_parts element. rewrite element_step_closed.
    unfold element_nodes.
    destruct (paragraph element) as [p|]; [reflexivity|].
    destruct (table element) as [t|]; reflexivity. }
  split.
  { intros p. apply join_empty_concat. }
  intros text_parts before after.
  rewrite (for_each_appends text_parts_step run_markup text_parts_step_closed).
  now rewrite flat_map_app.
Qed.

(** C7: a table is rendered as the opening line, then for each row, in
    order, a row opening, one cell line per cell, in order, and a row
    closing, then the closing line.  The text of a cell is the content of
    every run of every paragraph block of the cell, concatenated and
    trimmed once; the style of a run plays no part in it. *)
Theorem table_rows_cells_plain_text :
  (forall html_parts t,
     render_table html_parts t
     = Ok (html_parts ++ [ table_open ]
           ++ flat_map
                (fun row =>
                   [ lit "<tr>" ]
                   ++ map (fun cell =>
                             lit "<td>" ++ strip (cell_plain_text cell)
                             ++ lit "</td>")
                        (get (tableCells row) [])
                   ++ [ lit "</tr>" ])
                (get (tableRows t) [])
           ++ [ lit "</table>" ]))
  /\ (forall cell,
        cell_plain_text cell
        = List.concat
            (flat_map
               (fun block =>
                  match paragraph block with
                  | Some p => flat_map run_text (get (elements p) [])
                  | None => []
                  end)
               (get (cell_content cell) [])))
  /\ (forall text text_style,
        run_text {| textRun := Some {| content := text;
                                       textStyle := text_style |} |}
        = [ get text [] ])
  /\ render_table [] Sample.table_2x2
     = Ok [ table_open;
            lit "<tr>"; lit "<td>A</td>"; lit "<td>B</td>"; lit "</tr>";
            lit "<tr>"; lit "<td>C</td>"; lit "<td>D</td>"; lit "</tr>";
            lit "</table>" ].
Proof.
  split.
  { intros html_parts t. rewrite render_table_closed. reflexivity. }
  split.
  { intros cell. unfold cell_plain_text. apply join_empty_concat. }
  split; reflexivity.
Qed.


(** C9: rendering always returns a markup string, and an absent optional
    field gives the empty rendering of its section: no body or no content
    gives the head and tail alone, a paragraph without elements gives no
    node, a table without rows, a row without cells and a cell without
    content give their bare tags, an element that is neither a paragraph
    nor a table gives nothing, and a run without content or style gives the
    empty text. *)
Theorem render_is_total :
  (forall document, exists html,
     convert_google_doc_to_html document = Ok html)
  /\ (forall t,
        html_parts_of {| title := t; body := None |}
        = Ok (html_head (get t (lit "Untitled Document")) ++ html_tail))
  /\ (forall t,
        html_parts_of {| title := t;
                         body := Some {| body_content := None |} |}
        = Ok (html_head (get t (lit "Untitled Document")) ++ html_tail))
  /\ (forall html_parts style,
        render_paragraph html_parts
          {| elements := None; paragraphStyle := style |}
        = Ok html_parts)
  /\ (forall html_parts,
        render_table html_parts (Build_Table None)
        = Ok (html_parts ++ [ table_open; lit "</table>" ]))
  /\ (forall html_parts,
        row_step html_parts (Build_TableRow None)
        = Ok (html_parts ++ [ lit "<tr>"; lit "</tr>" ]))
  /\ (forall html_parts,
        cell_step html_parts (Build_TableCell None)
        = Ok (html_parts ++ [ lit "<td></td>" ]))
  /\ (forall html_parts,
        element_step html_parts (Build_StructuralElement None None)
        = Ok html_parts)
  /\ (forall text_parts,
        text_parts_step text_parts
          {| textRun := Some {| content := None; textStyle := None |} |}
        = Ok (text_parts ++ [ [] ])).
Proof.
  split.
  { intros document. unfold convert_google_doc_to_html.
    rewrite html_parts_of_closed. cbn [bind]. eexists. reflexivity. }
  split.
  { intros t. rewrite html_parts_of_closed. reflexivity. }
  split.
  { intros t. rewrite html_parts_of_closed. reflexivity. }
  split.
  { intros html_parts style. rewrite render_paragraph_closed.
    cbn. now rewrite app_nil_r. }
  split.
  { intros html_parts. rewrite render_table_closed. reflexivity. }
  split.
  { intros html_parts. rewrite row_step_closed. reflexivity. }
  split.
  { intros html_parts. rewrite cell_step_closed. reflexivity. }
  split.
  { intros html_parts. rewrite element_step_closed.
    cbn. now rewrite app_nil_r. }
  intros text_parts. rewrite text_parts_step_closed. reflexivity.
Qed.

(** C10: when the document has no title, the page title and the top-level
    heading both read Untitled Document. *)
Theorem absent_title_defaults_to_untitled (b : option Body) :
  exists html_parts,
    html_parts_of {| title := None; body := b |} = Ok html_parts
    /\ convert_google_doc_to_html {| title := None; body := b |}
       = Ok (join newline html_parts)
    /\ nth_error html_parts 3 = Some (lit "<title>Untitled Document</title>")
    /\ nth_error html_parts 19 = Some (lit "<h1>Untitled Document</h1>").
Proof.
  eexists. split; [apply html_parts_of_closed|].
  split.
  - unfold convert_google_doc_to_html.
    rewrite html_parts_of_closed. reflexivity.
  - split; reflexivity.
Qed.

(* ================================================================== *)
(** ** Failures of the document provider *)

(** Once the request has reached the lookup, the rest of the [try] block
    is the lookup, the not-found test, the fetch and the rendering. *)
Lemma handler_try_at_lookup
  (CredentialsData Credentials Service : Type)
  (w : Lambda.World CredentialsData Credentials Service)
  (event : Lambda.Event) (doc_name folder_id : str)
  (credentials : Credentials) (drive_service : Service) :
  Lambda.reaches_lookup w event doc_name folder_id credentials drive_service ->
  Lambda.handler_try w event
  = (doc_id <- Lambda.find_document_in_folder w drive_service doc_name
                 folder_id ;;
     if negb (Lambda.truthy_opt doc_id) then
       Ok (Lambda.error_response 404 (Lambda.not_found_message doc_name))
     else
       docs_service <- Lambda.build w "docs" "v1" credentials ;;
       document <- Lambda.documents_get_execute w docs_service
                     (get doc_id []) ;;
       html_content <- convert_google_doc_to_html document ;;
       Ok {| Lambda.statusCode := 200;
             Lambda.headers := Lambda.html_headers;
             Lambda.body := Lambda.Html html_content |}).
Proof.
  intros (Hname & Hnt & (cj & data & Hcj & Hcjt & Hdec & Hcred)
          & Hfolder & Hft & Hbuild).
  unfold Lambda.handler_try.
  rewrite Hname. cbn [bind Lambda.truthy_opt get].
  rewrite Hnt, Hcj. cbn [negb Lambda.truthy_opt get].
  rewrite Hcjt, Hfolder. cbn [negb Lambda.truthy_opt get].
  rewrite Hft, Hdec. cbn [negb].
  rewrite Hcred. cbn [bind]. rewrite Hbuild. cbn [bind].
  reflexivity.
Qed.

(** C3, as the code has it: for a request that reaches the lookup, a
    provider failure raised by the Drive listing is caught inside
    [find_document_in_folder] and answered as not found, with status 404,
    whatever its own status; an empty listing is answered with 404 too; a
    provider failure raised by the fetch of the document is answered with
    the status of the provider, unchanged, and with the message of its
    category for 404 and 403. *)
Theorem provider_failures_by_stage
  (CredentialsData Credentials Service : Type)
  (w : Lambda.World CredentialsData Credentials Service)
  (event : Lambda.Event) (doc_name folder_id : str)
  (credentials : Credentials) (drive_service : Service) :
  Lambda.reaches_lookup w event doc_name folder_id credentials drive_service ->
  (forall status error_details,
     Lambda.files_list_execute w drive_service
       (Lambda.drive_query doc_name folder_id)
     = Raise (HttpError status error_details) ->
     Lambda.lambda_handler w event
     = Lambda.error_response 404 (Lambda.not_found_message doc_name))
  /\ (forall listing,
        Lambda.files_list_execute w drive_service
          (Lambda.drive_query doc_name folder_id)
        = Ok listing ->
        get (Lambda.files listing) [] = [] ->
        Lambda.lambda_handler w event
        = Lambda.error_response 404 (Lambda.not_found_message doc_name))
  /\ (forall listing first rest doc_id docs_service status error_details,
        Lambda.files_list_execute w drive_service
          (Lambda.drive_query doc_name folder_id)
        = Ok listing ->
        get (Lambda.files listing) [] = first :: rest ->
        Lambda.file_id first = Some doc_id ->
        truthy doc_id = true ->
        Lambda.build w "docs" "v1" credentials = Ok docs_service ->
        Lambda.documents_get_execute w docs_service doc_id
        = Raise (HttpError status error_details) ->
        Lambda.lambda_handler w event
        = Lambda.error_response status
            (Lambda.http_error_message status error_details)
        /\ Lambda.statusCode (Lambda.lambda_handler w event) = status
        /\ (status = 404%Z ->
            Lambda.body (Lambda.lambda_handler w event)
            = Lambda.JsonError (lit "Document not found"))
        /\ (status = 403%Z ->
            Lambda.body (Lambda.lambda_handler w event)
            = Lambda.JsonError (lit "Access denied. Service account may not have permission to access this document or folder"))).
Proof.
  intros Hreach.
  pose proof (@handler_try_at_lookup _ _ _ _ _ _ _ _ _ Hreach) as Htry.
  unfold Lambda.lambda_handler. rewrite Htry. clear Htry.
  unfold Lambda.find_document_in_folder, Lambda.find_document_try.
  split; [|split].
  - intros status error_details ->. reflexivity.
  - intros listing Hlist Hfiles. rewrite Hlist. cbn [bind].
    rewrite Hfiles. reflexivity.
  - intros listing first rest doc_id docs_service status error_details
      Hlist Hfiles Hid Hdoc Hbuild Hfetch.
    rewrite Hlist. cbn [bind]. rewrite Hfiles, Hid.
    cbn [bind subscript Lambda.truthy_opt get]. rewrite Hdoc.
    cbn [negb]. rewrite Hbuild. cbn [bind]. rewrite Hfetch. cbn [bind].
    split; [reflexivity|]. split; [reflexivity|].
    split; intros ->; reflexivity.
Qed.

Lemma provider_failures_by_stage_witness :
  Lambda.lambda_handler Sample.lookup_denied Sample.event
  = Lambda.error_response 404 (Lambda.not_found_message (lit "Minutes"))
  /\ Lambda.statusCode (Lambda.lambda_handler Sample.fetch_denied Sample.event)
     = 403%Z.
Proof.
  split.
  - refine (proj1 (@provider_failures_by_stage unit unit unit
                     Sample.lookup_denied Sample.event (lit "Minutes")
                     (lit "folder-1") tt tt _) 403%Z (lit "forbidden") _).
    + repeat split. exists (lit "e30="), tt. repeat split.
    + reflexivity.
  - refine (proj1 (proj2 (proj2 (proj2 (@provider_failures_by_stage unit unit unit
                     Sample.fetch_denied Sample.event (lit "Minutes")
                     (lit "folder-1") tt tt _)) Sample.one_file _ [] (lit "doc-1") tt
                     403%Z (lit "forbidden") _ _ _ _ _ _))).
    + repeat split. exists (lit "e30="), tt. repeat split.
    + reflexivity.
    + reflexivity.
    + reflexivity.
    + reflexivity.
    + reflexivity.
    + reflexivity.
Defined.

(** C3 fails at the lookup and at the status classes: a Drive listing
    refused with 403 is answered with 404, and a fetch throttled with 429
    is answered with 429, which is not a 5xx status. *)
Lemma lookup_denied_reported_as_not_found :
  Lambda.statusCode (Lambda.lambda_handler Sample.lookup_denied Sample.event)
  = 404%Z
  /\ Lambda.statusCode (Lambda.lambda_handler Sample.lookup_denied Sample.event)
     <> 403%Z
  /\ Lambda.statusCode
       (Lambda.lambda_handler Sample.fetch_throttled Sample.event)
     = 429%Z.
Proof.
  split; [reflexivity|]. split; [|reflexivity].
  vm_compute. discriminate.
Qed.

(* ================================================================== *)
(** ** More on the renderer *)

Lemma flat_map_filter_skips {A B} (f : A -> list B) (keep : A -> bool)
  (xs : list A) :
  (forall x, keep x = false -> f x = []) ->
  flat_map f (filter keep xs) = flat_map f xs.
Proof.
  intros Hskip. induction xs as [|x xs IH]; simpl; [reflexivity|].
  destruct (keep x) eqn:Hk; simpl.
  - now rewrite IH.
  - now rewrite (Hskip x Hk), IH.
Qed.

Lemma forallb_concat {A} (f : A -> bool) (ls : list (list A)) :
  forallb f (List.concat ls) = forallb (forallb f) ls.
Proof.
  induction ls as [|l ls IH]; simpl; [reflexivity|].
  now rewrite forallb_app, IH.
Qed.

Lemma markup_blank (text : str) (text_style : TextStyle) :
  forallb isspace (apply_text_styles text text_style)
  = negb (flag (bold text_style) || flag (italic text_style)
          || flag (underline text_style))
    && forallb isspace text.
Proof.
  unfold apply_text_styles.
  destruct (flag (bold text_style)), (flag (italic text_style)),
    (flag (underline text_style)); reflexivity.
Qed.

Lemma run_markup_blank (elem : ParagraphElement) :
  forallb (forallb isspace) (run_markup elem) = blank_run elem.
Proof.
  unfold run_markup, blank_run, unstyled.
  destruct (textRun elem) as [tr|]; [|reflexivity].
  cbn [forallb]. rewrite markup_blank. now rewrite andb_true_r.
Qed.

Lemma runs_markup_blank (es : list ParagraphElement) :
  forallb (forallb isspace) (flat_map run_markup es) = forallb blank_run es.
Proof.
  induction es as [|e es IH]; [reflexivity|].
  change (flat_map run_markup (e :: es))
    with (run_markup e ++ flat_map run_markup es).
  rewrite forallb_app, run_markup_blank.
  change (forallb blank_run (e :: es))
    with (blank_run e && forallb blank_run es).
  apply f_equal. exact IH.
Qed.

(** X1: a paragraph appends nothing exactly when each of its elements is
    blank: no text run, or an unstyled run of whitespace. *)
Theorem paragraph_silent_iff_runs_blank (html_parts : list str) (p : Paragraph) :
  render_paragraph html_parts p = Ok html_parts
  <-> forallb blank_run (get (elements p) []) = true.
Proof.
  rewrite render_paragraph_closed.
  assert (Hblank : strip (joined_markup p) = []
                   <-> forallb blank_run (get (elements p) []) = true).
  { rewrite strip_nil_iff. unfold joined_markup.
    rewrite join_empty_concat, forallb_concat, runs_markup_blank.
    tauto. }
  rewrite <- Hblank. unfold paragraph_nodes.
  destruct (strip (joined_markup p)) as [|c t] eqn:Hs; simpl.
  - rewrite app_nil_r. tauto.
  - split; [|discriminate].
    intros H. injection H as H.
    rewrite <- (app_nil_r html_parts) in H at 2.
    apply app_inv_head in H. discriminate.
Qed.

(** X2: run boundaries do not show in unstyled text: two paragraphs with
    the same named style, no style flag on any run and the same
    concatenated text render alike. *)
Theorem unstyled_paragraph_depends_on_text
  (html_parts : list str) (p q : Paragraph) :
  forallb unstyled (get (elements p) []) = true ->
  forallb unstyled (get (elements q) []) = true ->
  plain_text p = plain_text q ->
  named_style p = named_style q ->
  render_paragraph html_parts p = render_paragraph html_parts q.
Proof.
  intros Hp Hq Htext Hstyle.
  rewrite !render_paragraph_closed.
  unfold paragraph_nodes, paragraph_tag, joined_markup.
  rewrite (unstyled_runs_markup_is_text _ Hp),
    (unstyled_runs_markup_is_text _ Hq).
  fold (plain_text p). fold (plain_text q).
  now rewrite Htext, Hstyle.
Qed.

Lemma unstyled_paragraph_depends_on_text_witness :
  render_paragraph [] Trial.hello_two_runs
  = render_paragraph [] Trial.hello_one_run.
Proof.
  apply (@unstyled_paragraph_depends_on_text [] Trial.hello_two_runs
           Trial.hello_one_run); reflexivity.
Defined.


Lemma join_cons (sep p : str) (rest : list str) :
  rest <> [] -> join sep (p :: rest) = p ++ sep ++ join sep rest.
Proof. destruct rest; [congruence|reflexivity]. Qed.

Lemma join_snoc (sep : str) (parts : list str) (last : str) :
  parts <> [] -> join sep (parts ++ [last]) = join sep parts ++ sep ++ last.
Proof.
  induction parts as [|p rest IH]; [congruence|]. intros _.
  destruct rest as [|q rest'].
  - reflexivity.
  - change ((p :: q :: rest') ++ [last]) with (p :: (q :: rest') ++ [last]).
    rewrite (@join_cons sep p ((q :: rest') ++ [last])) by discriminate.
    rewrite IH by discriminate.
    rewrite (@join_cons sep p (q :: rest')) by discriminate.
    now rewrite <- !app_assoc.
Qed.







(** X4: what the renderer does not read leaves no trace: paragraph
    elements without a text run, cell blocks without a paragraph (nested
    tables among them) and structural elements that are neither paragraph
    nor table can be removed from the input without changing the output. *)
Theorem unread_items_leave_no_trace :
  (forall html_parts p,
     render_paragraph html_parts
       {| elements :=
            Some (filter (fun elem => contains (textRun elem))
                    (get (elements p) []));
          paragraphStyle := paragraphStyle p |}
     = render_paragraph html_parts p)
  /\ (forall html_parts cell,
        cell_step html_parts
          (Build_TableCell
             (Some (filter (fun block => contains (paragraph block))
                      (get (cell_content cell) []))))
        = cell_step html_parts cell)
  /\ (forall html_parts content,
        for_each element_step
          (filter (fun element =>
                     contains (paragraph element) || contains (table element))
             content) html_parts
        = for_each element_step content html_parts).
Proof.
  split; [|split].
  - intros html_parts p. rewrite !render_paragraph_closed.
    unfold paragraph_nodes, paragraph_tag, named_style, joined_markup.
    cbn [elements paragraphStyle get].
    rewrite (flat_map_filter_skips run_markup).
    + reflexivity.
    + intros e. unfold run_markup. now destruct (textRun e).
  - intros html_parts cell. rewrite !cell_step_closed.
    unfold cell_node, cell_plain_text. cbn [cell_content get].
    rewrite (flat_map_filter_skips block_texts).
    + reflexivity.
    + intros b. unfold block_texts. now destruct (paragraph b).
  - intros html_parts content.
    rewrite !(for_each_appends element_step element_nodes element_step_closed).
    rewrite (flat_map_filter_skips element_nodes).
    + reflexivity.
    + intros e He. unfold element_nodes.
      destruct (paragraph e); [discriminate He|].
      destruct (table e); [discriminate He|reflexivity].
Qed.

(** X5: whatever the document holds, the page starts with the doctype
    line and ends with the two closing lines of body and html. *)
Theorem page_is_wrapped (document : Document) :
  exists middle,
    convert_google_doc_to_html document
    = Ok (lit "<!DOCTYPE html>" ++ newline ++ middle ++ newline
          ++ lit "</body>" ++ newline ++ lit "</html>").
Proof.
  unfold convert_google_doc_to_html. rewrite html_parts_of_closed.
  cbn [bind].
  set (t := get (title document) (lit "Untitled Document")).
  set (nodes := flat_map element_nodes _).
  exists (join newline (tl (html_head t) ++ nodes)).
  f_equal.
  assert (Hlist : html_head t ++ nodes ++ html_tail
                  = lit "<!DOCTYPE html>"
                    :: ((tl (html_head t) ++ nodes) ++ [lit "</body>"])
                       ++ [lit "</html>"]).
  { rewrite <- !app_assoc. reflexivity. }
  assert (Hne : tl (html_head t) ++ nodes <> []) by (cbn; discriminate).
  rewrite Hlist.
  rewrite (@join_cons newline (lit "<!DOCTYPE html>")
             (((tl (html_head t) ++ nodes) ++ [lit "</body>"])
              ++ [lit "</html>"])).
  2:{ intros H. apply app_eq_nil in H. destruct H as [_ H]. discriminate. }
  rewrite (@join_snoc newline ((tl (html_head t) ++ nodes) ++ [lit "</body>"])
             (lit "</html>")).
  2:{ intros H. apply app_eq_nil in H. destruct H as [_ H]. discriminate. }
  rewrite (@join_snoc newline (tl (html_head t) ++ nodes) (lit "</body>") Hne).
  now rewrite <- !app_assoc.
Qed.

(* ================================================================== *)
(** ** More on the handler *)

Lemma convert_never_raises (document : Document) :
  exists html_content, convert_google_doc_to_html document = Ok html_content.
Proof.
  unfold convert_google_doc_to_html. rewrite html_parts_of_closed.
  cbn [bind]. eexists. reflexivity.
Qed.

Section HandlerFacts.

Variables CredentialsData Credentials Service : Type.
Variable w : Lambda.World CredentialsData Credentials Service.

Lemma find_never_raises_http (drive_service : Service)
  (doc_name folder_id : str) (status : Z) (error_details : str) :
  Lambda.find_document_in_folder w drive_service doc_name folder_id
  <> Raise (HttpError status error_details).
Proof.
  unfold Lambda.find_document_in_folder, Lambda.find_document_try.
  destruct (Lambda.files_list_execute w drive_service _) as [listing|e].
  - cbn [bind]. destruct (get (Lambda.files listing) []) as [|first rest].
    + discriminate.
    + destruct (Lambda.file_id first); cbn; discriminate.
  - cbn [bind]. destruct e; discriminate.
Qed.

Lemma extract_raises_from_json_loads (event : Lambda.Event)
  (status : Z) (error_details : str) :
  Lambda.extract_doc_name w event = Raise (HttpError status error_details) ->
  exists s, Lambda.json_loads w s = Raise (HttpError status error_details).
Proof.
  unfold Lambda.extract_doc_name.
  destruct (Lambda.ev_doc_name event) as [v|]; cbn; [discriminate|].
  destruct (Lambda.ev_queryStringParameters event) as [[[|kv d]|]|];
    cbn; try discriminate.
  all: destruct (Lambda.ev_body event) as [[s|d'|]|]; cbn; try discriminate.
  all: destruct (Lambda.json_loads w s) as [[s'|d'|]|e] eqn:Hj; cbn;
    try discriminate.
  all: intros H; injection H as ->; exists s; exact Hj.
Qed.

(** The outcomes of the [try] block of the handler. *)
Lemma handler_try_outcomes (event : Lambda.Event) :
  match Lambda.handler_try w event with
  | Ok r =>
      (exists status message,
         r = Lambda.error_response status message
         /\ (status = 400 \/ status = 404 \/ status = 500)%Z)
      \/ (exists credentials docs_service doc_id document html_content,
            Lambda.build w "docs" "v1" credentials = Ok docs_service
            /\ Lambda.documents_get_execute w docs_service doc_id
               = Ok document
            /\ convert_google_doc_to_html document = Ok html_content
            /\ r = ok_response html_content)
  | Raise (HttpError status error_details) =>
      raised_outside_lookup w (HttpError status error_details)
  | Raise _ => True
  end.
Proof.
  unfold Lambda.handler_try.
  destruct (Lambda.extract_doc_name w event) as [dn|e] eqn:Hex; cbn [bind].
  2:{ destruct e; try exact I. left. eapply extract_raises_from_json_loads. exact Hex. }
  destruct (negb (Lambda.truthy_opt dn)).
  { left. eexists _, _. split; [reflexivity|]. auto. }
  destruct (negb (Lambda.truthy_opt (Lambda.environ_get w _))).
  { left. eexists _, _. split; [reflexivity|]. auto. }
  destruct (negb (Lambda.truthy_opt (Lambda.environ_get w _))).
  { left. eexists _, _. split; [reflexivity|]. auto. }
  destruct (Lambda.b64decode_json_loads w _) as [msg|data].
  { left. eexists _, _. split; [reflexivity|]. auto. }
  destruct (Lambda.from_service_account_info w data Lambda.SCOPES)
    as [credentials|e] eqn:Hcred; cbn [bind].
  2:{ destruct e; try exact I. right; left. now exists data. }
  destruct (Lambda.build w "drive" "v3" credentials)
    as [drive_service|e] eqn:Hdrive; cbn [bind].
  2:{ destruct e; try exact I. right; right; left. eauto. }
  destruct (Lambda.find_document_in_folder w drive_service _ _)
    as [doc_id|e] eqn:Hfind; cbn [bind].
  2:{ destruct e; try exact I. now apply find_never_raises_http in Hfind. }
  destruct (negb (Lambda.truthy_opt doc_id)).
  { left. eexists _, _. split; [reflexivity|]. auto. }
  destruct (Lambda.build w "docs" "v1" credentials)
    as [docs_service|e] eqn:Hdocs; cbn [bind].
  2:{ destruct e; try exact I. right; right; left. eauto. }
  destruct (Lambda.documents_get_execute w docs_service _)
    as [document|e] eqn:Hget; cbn [bind].
  2:{ destruct e; try exact I. right; right; right. eauto. }
  destruct (convert_google_doc_to_html document) as [html|e] eqn:Hconv;
    cbn [bind].
  - right. exists credentials, docs_service, (get doc_id []), document, html.
    auto.
  - destruct (convert_never_raises document) as [html Hhtml]. congruence.
Qed.

End HandlerFacts.

(** X6: every response is either the page, with status 200, the HTML and
    CORS headers and an HTML body, or an error, with the JSON header alone
    and a JSON error body; the CORS headers never accompany an error. *)
Theorem response_is_page_or_json_error
  (CredentialsData Credentials Service : Type)
  (w : Lambda.World CredentialsData Credentials Service)
  (event : Lambda.Event) :
  (exists html_content,
     Lambda.lambda_handler w event = ok_response html_content)
  \/ (exists status message,
        Lambda.lambda_handler w event
        = Lambda.error_response status message).
Proof.
  pose proof (handler_try_outcomes w event) as H.
  unfold Lambda.lambda_handler.
  destruct (Lambda.handler_try w event) as [r|e].
  - destruct H as [(status & message & -> & _)
                  |(_ & _ & _ & _ & html & _ & _ & _ & ->)]; eauto.
  - right. destruct e; eauto.
Qed.

(** X7: the status of a response is 200, 400, 404 or 500, or else it is
    the status of an HttpError raised by a call other than the Drive
    listing (parsing the body, building credentials or a service, fetching
    the document). *)
Theorem status_codes_of_the_handler
  (CredentialsData Credentials Service : Type)
  (w : Lambda.World CredentialsData Credentials Service)
  (event : Lambda.Event) :
  let status := Lambda.statusCode (Lambda.lambda_handler w event) in
  (status = 200 \/ status = 400 \/ status = 404 \/ status = 500)%Z
  \/ exists error_details,
       raised_outside_lookup w (HttpError status error_details).
Proof.
  pose proof (handler_try_outcomes w event) as H.
  unfold Lambda.lambda_handler.
  destruct (Lambda.handler_try w event) as [r|e].
  - left.
    destruct H as [(status & message & -> & Hs)
                  |(_ & _ & _ & _ & html & _ & _ & _ & ->)]; cbn; tauto.
  - destruct e; cbn; try tauto. right. eauto.
Qed.

(** X8: a page is only ever answered after a document was fetched, and
    its body is the rendering of that document. *)
Theorem page_comes_from_a_fetched_document
  (CredentialsData Credentials Service : Type)
  (w : Lambda.World CredentialsData Credentials Service)
  (event : Lambda.Event) (html_content : str) :
  Lambda.body (Lambda.lambda_handler w event) = Lambda.Html html_content ->
  Lambda.statusCode (Lambda.lambda_handler w event) = 200%Z
  /\ exists credentials docs_service doc_id document,
       Lambda.build w "docs" "v1" credentials = Ok docs_service
       /\ Lambda.documents_get_execute w docs_service doc_id = Ok document
       /\ convert_google_doc_to_html document = Ok html_content.
Proof.
  pose proof (handler_try_outcomes w event) as H.
  unfold Lambda.lambda_handler.
  destruct (Lambda.handler_try w event) as [r|e].
  - destruct H as [(status & message & -> & _)
                  |(cr & ds & id & doc & html & Hb & Hg & Hc & ->)].
    + discriminate.
    + cbn. intros Heq. injection Heq as <-. split; [reflexivity|]. eauto 8.
  - destruct e; discriminate.
Qed.

Lemma page_comes_from_a_fetched_document_witness :
  Lambda.statusCode (Lambda.lambda_handler Trial.served Sample.event) = 200%Z.
Proof.
  refine (proj1 (@page_comes_from_a_fetched_document unit unit unit
                   Trial.served Sample.event Trial.empty_page _)).
  reflexivity.
Defined.

(** X9: the key doc_name of the event decides alone when it is present:
    its value is the lookup key, and when that value is empty or None the
    answer is 400 whatever the query string and the body hold. *)
Theorem doc_name_key_takes_precedence
  (CredentialsData Credentials Service : Type)
  (w : Lambda.World CredentialsData Credentials Service)
  (event : Lambda.Event) (v : option str) :
  Lambda.ev_doc_name event = Some v ->
  Lambda.extract_doc_name w event = Ok v
  /\ (Lambda.truthy_opt v = false ->
      Lambda.lambda_handler w event
      = Lambda.error_response 400 (lit "Missing doc_name parameter")).
Proof.
  intros Hkey.
  assert (Hex : Lambda.extract_doc_name w event = Ok v).
  { unfold Lambda.extract_doc_name. rewrite Hkey. reflexivity. }
  split; [exact Hex|].
  intros Hv. unfold Lambda.lambda_handler, Lambda.handler_try.
  rewrite Hex. cbn [bind]. rewrite Hv. reflexivity.
Qed.

Lemma doc_name_key_takes_precedence_witness :
  Lambda.lambda_handler Trial.served Trial.shadowed_event
  = Lambda.error_response 400 (lit "Missing doc_name parameter").
Proof.
  refine (proj2 (@doc_name_key_takes_precedence unit unit unit
                   Trial.served Trial.shadowed_event (Some []) _) _);
    reflexivity.
Defined.

Lemma handler_depends_on_lookup_key
  (CredentialsData Credentials Service : Type)
  (w : Lambda.World CredentialsData Credentials Service)
  (event event' : Lambda.Event) :
  Lambda.extract_doc_name w event = Lambda.extract_doc_name w event' ->
  Lambda.lambda_handler w event = Lambda.lambda_handler w event'.
Proof.
  intros H. unfold Lambda.lambda_handler, Lambda.handler_try.
  now rewrite H.
Qed.

(** X10: the lookup key may come from the query string parameters, from a
    body that is an object, or from a body that is JSON text: each is
    answered as the event that holds the same value under doc_name.  Query
    string parameters that are null or empty are passed over in favour of
    the body. *)
Theorem lookup_key_channels_agree
  (CredentialsData Credentials Service : Type)
  (w : Lambda.World CredentialsData Credentials Service) :
  (forall d body,
     d <> [] ->
     Lambda.lambda_handler w (event_via (Some (Some d)) body)
     = Lambda.lambda_handler w
         (event_direct (Lambda.dict_get d (lit "doc_name"))))
  /\ (forall query d,
        Lambda.truthy_dict (get query None) = false ->
        Lambda.lambda_handler w
          (event_via query (Some (Lambda.BodyDict d)))
        = Lambda.lambda_handler w
            (event_direct (Lambda.dict_get d (lit "doc_name"))))
  /\ (forall query s d,
        Lambda.truthy_dict (get query None) = false ->
        Lambda.json_loads w s = Ok (Lambda.BodyDict d) ->
        Lambda.lambda_handler w
          (event_via query (Some (Lambda.BodyStr s)))
        = Lambda.lambda_handler w
            (event_direct (Lambda.dict_get d (lit "doc_name")))).
Proof.
  split; [|split].
  - intros d body Hd. apply handler_depends_on_lookup_key.
    destruct d as [|kv d]; [congruence|]. reflexivity.
  - intros query d Hq. apply handler_depends_on_lookup_key.
    unfold Lambda.extract_doc_name. cbn.
    rewrite Hq, andb_false_r. reflexivity.
  - intros query s d Hq Hs. apply handler_depends_on_lookup_key.
    unfold Lambda.extract_doc_name. cbn.
    rewrite Hq, andb_false_r. cbn. rewrite Hs. reflexivity.
Qed.

(** X11: a request without doc_name and without usable query string
    parameters is answered 400 only when the event has no body key; a
    body that is null, or JSON text that fails to parse, is answered 500
    with the text of the exception. *)
Theorem unusable_body_is_server_error
  (CredentialsData Credentials Service : Type)
  (w : Lambda.World CredentialsData Credentials Service)
  (query : option (option Lambda.dict)) :
  Lambda.truthy_dict (get query None) = false ->
  Lambda.lambda_handler w (event_via query None)
  = Lambda.error_response 400 (lit "Missing doc_name parameter")
  /\ Lambda.lambda_handler w (event_via query (Some Lambda.BodyNone))
     = Lambda.error_response 500
         (lit "Internal server error: 'NoneType' object has no attribute 'get'")
  /\ (forall s message,
        Lambda.json_loads w s = Raise (Exception message) ->
        Lambda.lambda_handler w (event_via query (Some (Lambda.BodyStr s)))
        = Lambda.error_response 500
            (lit "Internal server error: " ++ message)).
Proof.
  intros Hq.
  unfold Lambda.lambda_handler, Lambda.handler_try, Lambda.extract_doc_name.
  cbn [event_via Lambda.ev_doc_name Lambda.ev_queryStringParameters
       Lambda.ev_body contains].
  rewrite Hq, andb_false_r.
  split; [reflexivity|]. split; [reflexivity|].
  intros s message Hs. cbn [contains subscript bind]. rewrite Hs. reflexivity.
Qed.

Lemma unusable_body_is_server_error_witness :
  Lambda.lambda_handler Trial.served
    (event_via (Some None) (Some Lambda.BodyNone))
  = Lambda.error_response 500
      (lit "Internal server error: 'NoneType' object has no attribute 'get'").
Proof.
  refine (proj1 (proj2 (@unusable_body_is_server_error unit unit unit
                          Trial.served (Some None) _))).
  reflexivity.
Defined.

(** X12: with a lookup key in hand the configuration is checked in a fixed
    order, before any service is built: credentials unset or empty, then
    folder unset or empty, then credentials that do not decode; each is
    answered 500 with its own message. *)
Theorem configuration_is_checked_in_order
  (CredentialsData Credentials Service : Type)
  (w : Lambda.World CredentialsData Credentials Service)
  (event : Lambda.Event) (doc_name : str) :
  Lambda.extract_doc_name w event = Ok (Some doc_name) ->
  truthy doc_name = true ->
  (Lambda.truthy_opt (Lambda.environ_get w "GOOGLE_CREDENTIALS_JSON") = false ->
   Lambda.lambda_handler w event
   = Lambda.error_response 500
       (lit "GOOGLE_CREDENTIALS_JSON environment variable not set"))
  /\ (Lambda.truthy_opt (Lambda.environ_get w "GOOGLE_CREDENTIALS_JSON") = true ->
      Lambda.truthy_opt (Lambda.environ_get w "GOOGLE_DRIVE_FOLDER_ID") = false ->
      Lambda.lambda_handler w event
      = Lambda.error_response 500
          (lit "GOOGLE_DRIVE_FOLDER_ID environment variable not set"))
  /\ (forall message,
        Lambda.truthy_opt (Lambda.environ_get w "GOOGLE_CREDENTIALS_JSON") = true ->
        Lambda.truthy_opt (Lambda.environ_get w "GOOGLE_DRIVE_FOLDER_ID") = true ->
        Lambda.b64decode_json_loads w
          (get (Lambda.environ_get w "GOOGLE_CREDENTIALS_JSON") [])
        = inl message ->
        Lambda.lambda_handler w event
        = Lambda.error_response 500
            (lit "Failed to decode credentials: " ++ message)).
Proof.
  intros Hex Hname.
  unfold Lambda.lambda_handler, Lambda.handler_try.
  rewrite Hex. cbn [bind Lambda.truthy_opt]. rewrite Hname. cbn [negb].
  split; [|split].
  - intros ->. reflexivity.
  - intros -> ->. reflexivity.
  - intros message -> -> ->. reflexivity.
Qed.

Lemma configuration_is_checked_in_order_witness :
  Lambda.lambda_handler Trial.unconfigured Sample.event
  = Lambda.error_response 500
      (lit "GOOGLE_CREDENTIALS_JSON environment variable not set").
Proof.
  refine (proj1 (@configuration_is_checked_in_order unit unit unit
                   Trial.unconfigured Sample.event (lit "Minutes") _ _) _);
    reflexivity.
Defined.

(** X13: the lookup never lets an HttpError out; it answers None when the
    listing has no files key or no entry, the id of the first entry
    whatever follows it, and fails with KeyError when the first entry has
    no id. *)
Theorem lookup_takes_the_first_entry
  (CredentialsData Credentials Service : Type)
  (w : Lambda.World CredentialsData Credentials Service)
  (drive_service : Service) (doc_name folder_id : str) :
  (forall status error_details,
     Lambda.find_document_in_folder w drive_service doc_name folder_id
     <> Raise (HttpError status error_details))
  /\ (forall listing,
        Lambda.files_list_execute w drive_service
          (Lambda.drive_query doc_name folder_id) = Ok listing ->
        match get (Lambda.files listing) [] with
        | [] =>
            Lambda.find_document_in_folder w drive_service doc_name
              folder_id = Ok None
        | first :: _ =>
            Lambda.find_document_in_folder w drive_service doc_name
              folder_id
            = match Lambda.file_id first with
              | Some id => Ok (Some id)
              | None => Raise (KeyError "id")
              end
        end).
Proof.
  split.
  - intros status error_details. apply find_never_raises_http.
  - intros listing Hl.
    unfold Lambda.find_document_in_folder, Lambda.find_document_try.
    rewrite Hl. cbn [bind].
    destruct (get (Lambda.files listing) []) as [|first rest];
      [reflexivity|].
    destruct (Lambda.file_id first); reflexivity.
Qed.

(** X14: when the lookup is reached, the listing has a first entry with a
    non-empty id and the fetch of that id succeeds, the answer is the page:
    rendering cannot fail, so a fetched document is always served. *)
Theorem fetched_document_is_served
  (CredentialsData Credentials Service : Type)
  (w : Lambda.World CredentialsData Credentials Service)
  (event : Lambda.Event) (doc_name folder_id : str)
  (credentials : Credentials) (drive_service docs_service : Service)
  (listing : Lambda.FileList) (first : Lambda.File) (rest : list Lambda.File)
  (doc_id : str) (document : Document) :
  Lambda.reaches_lookup w event doc_name folder_id credentials drive_service ->
  Lambda.files_list_execute w drive_service
    (Lambda.drive_query doc_name folder_id) = Ok listing ->
  get (Lambda.files listing) [] = first :: rest ->
  Lambda.file_id first = Some doc_id ->
  truthy doc_id = true ->
  Lambda.build w "docs" "v1" credentials = Ok docs_service ->
  Lambda.documents_get_execute w docs_service doc_id = Ok document ->
  exists html_parts,
    html_parts_of document = Ok html_parts
    /\ Lambda.lambda_handler w event
       = ok_response (join newline html_parts).
Proof.
  intros Hreach Hlist Hfiles Hid Hdoc Hbuild Hfetch.
  eexists. split; [apply html_parts_of_closed|].
  unfold Lambda.lambda_handler.
  rewrite (@handler_try_at_lookup _ _ _ _ _ _ _ _ _ Hreach).
  unfold Lambda.find_document_in_folder, Lambda.find_document_try.
  rewrite Hlist. cbn [bind]. rewrite Hfiles, Hid.
  cbn [bind subscript Lambda.truthy_opt get]. rewrite Hdoc. cbn [negb].
  rewrite Hbuild. cbn [bind]. rewrite Hfetch. cbn [bind].
  unfold convert_google_doc_to_html. rewrite html_parts_of_closed.
  reflexivity.
Qed.

Lemma fetched_document_is_served_witness :
  exists html_parts,
    html_parts_of Sample.empty_document = Ok html_parts
    /\ Lambda.lambda_handler Trial.served Sample.event
       = ok_response (join newline html_parts).
Proof.
  refine (@fetched_document_is_served unit unit unit Trial.served
            Sample.event (lit "Minutes") (lit "folder-1") tt tt tt
            Sample.one_file _ [] (lit "doc-1") Sample.empty_document
            _ _ _ _ _ _ _); try reflexivity.
  repeat split. exists (lit "e30="), tt. repeat split.
Defined.

(** X15: when the lookup is reached and the first entry of the listing has
    no id the answer is 500 with the text of the KeyError; when its id is
    the empty string the answer is 404, as for a document not found. *)
Theorem malformed_listing_entry
  (CredentialsData Credentials Service : Type)
  (w : Lambda.World CredentialsData Credentials Service)
  (event : Lambda.Event) (doc_name folder_id : str)
  (credentials : Credentials) (drive_service : Service)
  (listing : Lambda.FileList) (first : Lambda.File) (rest : list Lambda.File) :
  Lambda.reaches_lookup w event doc_name folder_id credentials drive_service ->
  Lambda.files_list_execute w drive_service
    (Lambda.drive_query doc_name folder_id) = Ok listing ->
  get (Lambda.files listing) [] = first :: rest ->
  (Lambda.file_id first = None ->
   Lambda.lambda_handler w event
   = Lambda.error_response 500 (lit "Internal server error: 'id'"))
  /\ (Lambda.file_id first = Some [] ->
      Lambda.lambda_handler w event
      = Lambda.error_response 404 (Lambda.not_found_message doc_name)).
Proof.
  intros Hreach Hlist Hfiles.
  unfold Lambda.lambda_handler.
  rewrite (@handler_try_at_lookup _ _ _ _ _ _ _ _ _ Hreach).
  unfold Lambda.find_document_in_folder, Lambda.find_document_try.
  rewrite Hlist. cbn [bind]. rewrite Hfiles.
  split; intros ->; reflexivity.
Qed.

Lemma malformed_listing_entry_witness :
  Lambda.lambda_handler Trial.listed_without_id Sample.event
  = Lambda.error_response 500 (lit "Internal server error: 'id'").
Proof.
  refine (proj1 (@malformed_listing_entry unit unit unit
                   Trial.listed_without_id Sample.event (lit "Minutes")
                   (lit "folder-1") tt tt Trial.nameless_listing _ [] _ _ _) _);
    try reflexivity.
  repeat split. exists (lit "e30="), tt. repeat split.
Defined.

(** X16: the Drive query holds the name and the folder id as they are,
    quotes included, so different lookups can share one query: moving the
    text between name and folder across the separator gives the same
    query. *)
Theorem drive_query_is_not_escaped (a b c : str) :
  Lambda.drive_query (a ++ lit "' and '" ++ b) c
  = Lambda.drive_query a (b ++ lit "' and '" ++ c).
Proof.
  unfold Lambda.drive_query. now rewrite <- !app_assoc.
Qed.


